(** * app.py: the two request handlers of the Flask service

    A shallow embedding of [src/app.py].  The module has two views:
    [home] (route [/]) and [employees] (route [/employees]).  The second
    one talks to a MySQL store through the module-level connection [db]:
    it acquires a cursor, runs one fixed statement, fetches all rows,
    turns every row into a two-key dictionary and hands the list to
    [jsonify]; the whole body sits in [try ... except Exception as e]
    whose handler returns [str(e)].

    The store client (pymysql) and the web framework (Flask) are not part
    of the repository.  The store client is a parameter of the
    development (record [DbApi]); of the framework only what the two
    views rely on is described: [jsonify] and the conversion of a view's
    return value into a response. *)

From Stdlib Require Import ZArith List String Ascii Bool Lia.
Import ListNotations.
Open Scope string_scope.
Open Scope list_scope.

Set Warnings "-register-all".

(** ** Python values *)

(** The values that flow from the store to the response.  A column value
    is delivered by the store client with whatever runtime type the
    column has; [PyBytes] stands for the values that the JSON encoder
    refuses.  [PyList] and [PyDict] are what the view itself builds. *)
Inductive pyval : Type :=
| PyNone
| PyBool (b : bool)
| PyInt (n : Z)
| PyStr (s : string)
| PyBytes (bs : list ascii)
| PyList (xs : list pyval)
| PyDict (items : list (string * pyval)).

(** A row is a tuple of column values, in column order. *)
Definition row : Type := list pyval.

(** ** Exceptions *)

(** The part of the class hierarchy that the view can meet: the builtin
    roots, the two builtin errors raised by indexing and by the encoder,
    and the error classes of the store client. *)
Inductive exc_class : Type :=
| BaseException
| Exception
| KeyboardInterrupt
| SystemExit
| GeneratorExit
| LookupError
| IndexError
| TypeError
| MySQLError
| DbError
| InterfaceError
| DatabaseError
| OperationalError
| ProgrammingError.

(** Direct base class; [BaseException] is the root. *)
Definition base (c : exc_class) : option exc_class :=
  match c with
  | BaseException => None
  | Exception | KeyboardInterrupt | SystemExit | GeneratorExit => Some BaseException
  | LookupError | TypeError | MySQLError => Some Exception
  | IndexError => Some LookupError
  | DbError => Some MySQLError
  | InterfaceError | DatabaseError => Some DbError
  | OperationalError | ProgrammingError => Some DatabaseError
  end.

Definition exc_class_eqb (c d : exc_class) : bool :=
  match c, d with
  | BaseException, BaseException | Exception, Exception
  | KeyboardInterrupt, KeyboardInterrupt | SystemExit, SystemExit
  | GeneratorExit, GeneratorExit | LookupError, LookupError
  | IndexError, IndexError | TypeError, TypeError
  | MySQLError, MySQLError | DbError, DbError
  | InterfaceError, InterfaceError | DatabaseError, DatabaseError
  | OperationalError, OperationalError
  | ProgrammingError, ProgrammingError => true
  | _, _ => false
  end.

(** [climb n c d]: [d] is reached from [c] in at most [n] steps along
    [base]. *)
Fixpoint climb (n : nat) (c d : exc_class) : bool :=
  exc_class_eqb c d ||
  match n with
  | O => false
  | S n' => match base c with
            | Some p => climb n' p d
            | None => false
            end
  end.

(** The hierarchy above has depth 5. *)
Definition issubclass (c d : exc_class) : bool := climb 5 c d.

(** An exception object: its class and the text [str(e)] yields. *)
Record exc : Type := MkExc { exc_cls : exc_class; exc_msg : string }.

Definition isinstance (e : exc) (c : exc_class) : bool :=
  issubclass (exc_cls e) c.

Definition str (e : exc) : string := exc_msg e.

(** ** Results of a call *)

(** A call either returns a value or raises. *)
Inductive reply (A : Type) : Type :=
| Ok (a : A)
| Raise (e : exc).
Arguments Ok {A} a.
Arguments Raise {A} e.

Definition reply_bind {A B} (r : reply A) (k : A -> reply B) : reply B :=
  match r with
  | Ok a => k a
  | Raise e => Raise e
  end.

(** ** The row mapping (line 26) *)

(** [t[i]] on a tuple, for a non-negative literal index. *)
Definition getitem (t : row) (i : nat) : reply pyval :=
  match nth_error t i with
  | Some v => Ok v
  | None => Raise (MkExc IndexError "tuple index out of range")
  end.

(** The dictionary display [{"id": r[0], "name": r[1]}]; the two
    subscripts are evaluated left to right. *)
Definition record_of_row (r : row) : reply pyval :=
  reply_bind (getitem r 0) (fun v0 =>
  reply_bind (getitem r 1) (fun v1 =>
  Ok (PyDict [("id", v0); ("name", v1)]))).

(** A list comprehension [[f r for r in rows]]: elements are produced in
    iteration order and the first exception ends the evaluation. *)
Fixpoint comprehension {A B} (f : A -> reply B) (rows : list A) : reply (list B) :=
  match rows with
  | [] => Ok []
  | r :: rest =>
      reply_bind (f r) (fun d =>
      reply_bind (comprehension f rest) (fun ds => Ok (d :: ds)))
  end.

(** ** The framework: JSON encoding and responses *)

Inductive json : Type :=
| JNull
| JBool (b : bool)
| JNum (n : Z)
| JStr (s : string)
| JArr (xs : list json)
| JObj (members : list (string * json)).

(** The encoder behind [jsonify]: scalars map to the JSON scalar of the
    same value, lists to arrays, dictionaries to objects; a value it has
    no encoding for raises [TypeError]. *)
Fixpoint to_json (v : pyval) : reply json :=
  match v with
  | PyNone => Ok JNull
  | PyBool b => Ok (JBool b)
  | PyInt n => Ok (JNum n)
  | PyStr s => Ok (JStr s)
  | PyBytes _ =>
      Raise (MkExc TypeError "Object of type bytes is not JSON serializable")
  | PyList xs =>
      reply_bind
        ((fix go (l : list pyval) : reply (list json) :=
            match l with
            | [] => Ok []
            | x :: l' =>
                reply_bind (to_json x) (fun j =>
                reply_bind (go l') (fun js => Ok (j :: js)))
            end) xs)
        (fun js => Ok (JArr js))
  | PyDict items =>
      reply_bind
        ((fix go (l : list (string * pyval)) : reply (list (string * json)) :=
            match l with
            | [] => Ok []
            | (k, x) :: l' =>
                reply_bind (to_json x) (fun j =>
                reply_bind (go l') (fun ms => Ok ((k, j) :: ms)))
            end) items)
        (fun ms => Ok (JObj ms))
  end.

Inductive body : Type :=
| Text (s : string)
| Json (j : json).

Record response : Type := MkResponse {
  status : Z;
  mimetype : string;
  payload : body
}.

(** [jsonify(data)]: a response of type [application/json] with the
    default status. *)
Definition jsonify (data : pyval) : reply response :=
  reply_bind (to_json data) (fun j =>
  Ok (MkResponse 200 "application/json" (Json j))).

(** What a view function may return: a string or a response object. *)
Inductive view_rv : Type :=
| RvStr (s : string)
| RvResponse (r : response).

(** The framework's conversion of a view's return value: a string
    becomes the body of a [text/html] response with the default status,
    a response object is sent as it is. *)
Definition make_response (rv : view_rv) : response :=
  match rv with
  | RvStr s => MkResponse 200 "text/html" (Text s)
  | RvResponse r => r
  end.

(** ** The store client *)

(** The statement of line 24. *)
Definition select_stmt : string := "SELECT * FROM employees;".

(** What the view uses of the store client.  [world] is the state of the
    store together with the long-lived connection [db]; [cur] is the
    state of a cursor object.  A cursor is local to one call of the view,
    so its state is threaded as a value: [api_execute] returns the cursor
    holding the result set (the row count that the real call returns is
    discarded by the view).  Every call may raise, and every call
    may change the world. *)
Record DbApi : Type := MkDbApi {
  world : Type;
  cur : Type;
  api_cursor : world -> reply cur * world;
  api_execute : cur -> string -> world -> reply cur * world;
  api_fetchall : cur -> world -> reply (list row) * world
}.

(** The calls a view makes on the store, in the order they are made. *)
Inductive call : Type :=
| CallCursor
| CallExecute (sql : string)
| CallFetchall.



Section Views.

Variable api : DbApi.

(** The state a request runs in: the world, and the record of the store
    calls made so far (ghost state, never read by the views). *)
Record state : Type := MkState {
  store : world api;
  calls : list call
}.

(** Computations of a view: they read and write the state and may
    raise. *)
Definition M (A : Type) : Type := state -> reply A * state.

Definition ret {A} (a : A) : M A := fun s => (Ok a, s).

Definition bind {A B} (m : M A) (k : A -> M B) : M B :=
  fun s =>
    match m s with
    | (Ok a, s') => k a s'
    | (Raise e, s') => (Raise e, s')
    end.

(** A computation that touches no state. *)
Definition lift {A} (r : reply A) : M A := fun s => (r, s).

(** [try: body except c as e: handler e].  An exception that is not an
    instance of [c] is not handled and leaves the statement. *)
Definition try_except {A} (body : M A) (c : exc_class) (handler : exc -> M A) : M A :=
  fun s =>
    match body s with
    | (Ok a, s') => (Ok a, s')
    | (Raise e, s') => if isinstance e c then handler e s' else (Raise e, s')
    end.

(** [db.cursor()] *)
Definition db_cursor : M (cur api) :=
  fun s =>
    let (r, w) := api_cursor api (store s) in
    (r, MkState w (calls s ++ [CallCursor])).

(** [cursor.execute(sql)] *)
Definition cursor_execute (c : cur api) (sql : string) : M (cur api) :=
  fun s =>
    let (r, w) := api_execute api c sql (store s) in
    (r, MkState w (calls s ++ [CallExecute sql])).

(** [cursor.fetchall()] *)
Definition cursor_fetchall (c : cur api) : M (list row) :=
  fun s =>
    let (r, w) := api_fetchall api c (store s) in
    (r, MkState w (calls s ++ [CallFetchall])).

Notation "x <- m ;; k" := (bind m (fun x => k))
  (at level 61, m at next level, right associativity).

(** The view of route [/] (lines 16-18). *)
Definition home : M view_rv :=
  ret (RvStr "<h2>Hello from Flask App on EC2 via ALB!</h2>").

(** The body of the [try] statement (lines 23-27). *)
Definition employees_body : M view_rv :=
  cursor <- db_cursor ;;
  cursor <- cursor_execute cursor "SELECT * FROM employees;" ;;
  rows <- cursor_fetchall cursor ;;
  data <- lift (comprehension record_of_row rows) ;;
  resp <- lift (jsonify (PyList data)) ;;
  ret (RvResponse resp).

(** The view of route [/employees] (lines 20-29). *)
Definition employees : M view_rv :=
  try_except employees_body Exception (fun e => ret (RvStr (str e))).

End Views.

Arguments MkState {api} _ _.
Arguments store {api} _.
Arguments calls {api} _.

(** A request that starts in world [w] with no store call made yet. *)
Definition fresh (api : DbApi) (w : world api) : state api := MkState w [].

(** [fetches api w rows]: in world [w] cursor acquisition, the execution
    of the statement and the fetch all succeed, and the fetch delivers
    [rows]. *)
Definition fetches (api : DbApi) (w : world api) (rows : list row) : Prop :=
  exists c w1 c' w2 w3,
    api_cursor api w = (Ok c, w1) /\
    api_execute api c select_stmt w1 = (Ok c', w2) /\
    api_fetchall api c' w2 = (Ok rows, w3).

(** [fails_with api w e]: in world [w] one of the three store calls of
    the view raises [e], the calls before it having succeeded. *)
Definition fails_with (api : DbApi) (w : world api) (e : exc) : Prop :=
  (exists w1, api_cursor api w = (Raise e, w1)) \/
  (exists c w1 w2,
      api_cursor api w = (Ok c, w1) /\
      api_execute api c select_stmt w1 = (Raise e, w2)) \/
  (exists c w1 c' w2 w3,
      api_cursor api w = (Ok c, w1) /\
      api_execute api c select_stmt w1 = (Ok c', w2) /\
      api_fetchall api c' w2 = (Raise e, w3)).

(** ** A store held in memory *)

(** A stand-in for the store, as a unit test of the views would use: one
    table with named columns, and an optional scripted fault, the call at
    which the store raises and the exception it raises there. *)
Module MemStore.

Inductive site : Type := AtCursor | AtExecute | AtFetchall.

Definition site_eqb (a b : site) : bool :=
  match a, b with
  | AtCursor, AtCursor | AtExecute, AtExecute | AtFetchall, AtFetchall => true
  | _, _ => false
  end.

Record mem_world : Type := MkMem {
  fault : option (site * exc);
  columns : list string;
  table_rows : list row
}.

(** The exception scripted for call site [a], if any. *)
Definition fault_at (a : site) (w : mem_world) : option exc :=
  match fault w with
  | Some (b, e) => if site_eqb a b then Some e else None
  | None => None
  end.

(** A cursor holds the result set of the last statement, if any. *)
Definition mem_cur : Type := option (list row).

Definition mem_cursor (w : mem_world) : reply mem_cur * mem_world :=
  match fault_at AtCursor w with
  | Some e => (Raise e, w)
  | None => (Ok None, w)
  end.

Definition mem_execute (c : mem_cur) (sql : string) (w : mem_world)
  : reply mem_cur * mem_world :=
  match fault_at AtExecute w with
  | Some e => (Raise e, w)
  | None =>
      if String.eqb sql select_stmt
      then (Ok (Some (table_rows w)), w)
      else (Raise (MkExc ProgrammingError "(1064, 'You have an error in your SQL syntax')"), w)
  end.

Definition mem_fetchall (c : mem_cur) (w : mem_world)
  : reply (list row) * mem_world :=
  match fault_at AtFetchall w with
  | Some e => (Raise e, w)
  | None =>
      match c with
      | Some rows => (Ok rows, w)
      | None => (Raise (MkExc ProgrammingError "execute() first"), w)
      end
  end.

Definition mem_api : DbApi :=
  {| world := mem_world;
     cur := mem_cur;
     api_cursor := mem_cursor;
     api_execute := mem_execute;
     api_fetchall := mem_fetchall |}.

(** A reachable store whose table has columns [id], [name] and the
    given rows. *)
Definition serving (rows : list row) : mem_world :=
  MkMem None ["id"; "name"] rows.

(** A store that raises [e] at call site [a]. *)
Definition failing (a : site) (e : exc) (rows : list row) : mem_world :=
  MkMem (Some (a, e)) ["id"; "name"] rows.

(** What the client raises when the connection is closed. *)
Definition connection_closed : exc := MkExc InterfaceError "(0, '')".

(** What the client raises when the server went away during a query. *)
Definition connection_lost : exc :=
  MkExc OperationalError "(2013, 'Lost connection to MySQL server during query')".

End MemStore.

(** The table of the concrete scenario. *)
Definition alice_bob : list row :=
  [[PyInt 1; PyStr "Alice"]; [PyInt 2; PyStr "Bob"]].

(** ** Vocabulary of the properties *)

(** Lines 26-27 on the rows delivered by the fetch: the comprehension,
    then [jsonify]. *)
Definition finish (rows : list row) : reply view_rv :=
  reply_bind (comprehension record_of_row rows) (fun data =>
  reply_bind (jsonify (PyList data)) (fun resp =>
  Ok (RvResponse resp))).

(** The store calls of a run of the view in which none raises. *)
Definition three_calls : list call :=
  [CallCursor; CallExecute select_stmt; CallFetchall].

(** [raises_in_body api w e]: in world [w] the body of the [try]
    statement raises [e]: at one of the store calls, in the comprehension,
    or in [jsonify]. *)
Definition raises_in_body (api : DbApi) (w : world api) (e : exc) : Prop :=
  fails_with api w e \/
  exists rows, fetches api w rows /\ finish rows = Raise e.



(** [d[k]] on a dictionary, as an option. *)
Definition dict_get (d : pyval) (k : string) : option pyval :=
  match d with
  | PyDict items =>
      match find (fun kv => String.eqb (fst kv) k) items with
      | Some kv => Some (snd kv)
      | None => None
      end
  | _ => None
  end.

Definition is_int (v : pyval) : bool :=
  match v with PyInt _ => true | _ => false end.

Definition is_str (v : pyval) : bool :=
  match v with PyStr _ => true | _ => false end.

(** The record has the types the interface table announces: an integer
    [id] and a string [name]. *)
Definition typed_record (d : pyval) : bool :=
  match dict_get d "id", dict_get d "name" with
  | Some v0, Some v1 => is_int v0 && is_str v1
  | _, _ => false
  end.

(** The first two column values have an encoding. *)
Definition encodable (r : row) : Prop :=
  exists v0 v1 j0 j1,
    nth_error r 0 = Some v0 /\ nth_error r 1 = Some v1 /\
    to_json v0 = Ok j0 /\ to_json v1 = Ok j1.

(** [j] is the object made from row [r]: its [id] member is the encoding
    of the first column value, its [name] member the encoding of the
    second. *)
Definition object_of_row (r : row) (j : json) : Prop :=
  exists v0 v1 j0 j1,
    nth_error r 0 = Some v0 /\ nth_error r 1 = Some v1 /\
    to_json v0 = Ok j0 /\ to_json v1 = Ok j1 /\
    j = JObj [("id", j0); ("name", j1)].

(** The response [jsonify] builds around a JSON value. *)
Definition json_response (j : json) : response :=
  MkResponse 200 "application/json" (Json j).

(** What the [except] clause makes of the outcome of the body. *)
Definition caught (r : reply view_rv) : reply view_rv :=
  match r with
  | Ok rv => Ok rv
  | Raise e => if isinstance e Exception then Ok (RvStr (str e)) else Raise e
  end.

(** ** The top level of the module (lines 5-14, 16, 20 and 31-32) *)

(** The keyword arguments of [pymysql.connect]. *)
Record connect_args : Type := MkConnectArgs {
  host : string;
  user : string;
  password : string;
  database : string
}.

(** The two view functions, as the objects handed to [app.route]. *)
Inductive view_name : Type :=
| ViewHome
| ViewEmployees.

(** What the top level uses of the framework, of the CORS extension and
    of the store client.  [fw_world] is the state of the process and of
    what it talks to; an application object and a connection are handles.
    Every call may raise. *)
Record Framework : Type := MkFramework {
  fw_world : Type;
  fw_app : Type;
  fw_conn : Type;
  new_flask : string -> fw_world -> reply fw_app * fw_world;
  enable_cors : fw_app -> fw_world -> reply unit * fw_world;
  connect : connect_args -> fw_world -> reply fw_conn * fw_world;
  add_route : fw_app -> string -> view_name -> fw_world -> reply unit * fw_world;
  run : fw_app -> string -> Z -> fw_world -> reply unit * fw_world
}.

(** The calls the top level makes, in the order they are made. *)
Inductive boot_call : Type :=
| BootFlask (import_name : string)
| BootCORS
| BootConnect (args : connect_args)
| BootRoute (rule : string) (view : view_name)
| BootRun (run_host : string) (port : Z).

Section Toplevel.

Variable fw : Framework.

(** The state the module is loaded in: the world, and the record of the
    calls made so far (ghost state). *)
Record boot : Type := MkBoot {
  process : fw_world fw;
  booted : list boot_call
}.

Definition B (A : Type) : Type := boot -> reply A * boot.

Definition bret {A} (a : A) : B A := fun b => (Ok a, b).

(** Sequencing of statements: nothing at the top level catches. *)
Definition bbind {A C} (m : B A) (k : A -> B C) : B C :=
  fun b =>
    match m b with
    | (Ok a, b') => k a b'
    | (Raise e, b') => (Raise e, b')
    end.

(** One call, put on record. *)
Definition booting {A} (c : boot_call) (f : fw_world fw -> reply A * fw_world fw) : B A :=
  fun b =>
    let (r, w) := f (process b) in
    (r, MkBoot w (booted b ++ [c])).

(** The arguments of lines 9-14. *)
Definition db_args : connect_args :=
  MkConnectArgs "three-tier-db.chk0a6u6g52s.ca-central-1.rds.amazonaws.com"
                "admin" "*********" "company".

Notation "x <- m ;; k" := (bbind m (fun x => k))
  (at level 61, m at next level, right associativity).

(** The statements of the module in textual order, run under the module
    name [name]; the result is the pair of globals [app], [db]. *)
Definition toplevel (name : string) : B (fw_app fw * fw_conn fw) :=
  app <- booting (BootFlask name) (new_flask fw name) ;;
  _ <- booting BootCORS (enable_cors fw app) ;;
  db <- booting (BootConnect db_args) (connect fw db_args) ;;
  _ <- booting (BootRoute "/" ViewHome) (add_route fw app "/" ViewHome) ;;
  _ <- booting (BootRoute "/employees" ViewEmployees)
               (add_route fw app "/employees" ViewEmployees) ;;
  _ <- (if String.eqb name "__main__"
        then booting (BootRun "0.0.0.0" 5000) (run fw app "0.0.0.0" 5000)
        else bret tt) ;;
  bret (app, db).

End Toplevel.

Arguments MkBoot {fw} _ _.
Arguments process {fw} _.
Arguments booted {fw} _.

(** The calls made before the server is started. *)
Definition setup_calls (name : string) : list boot_call :=
  [BootFlask name; BootCORS; BootConnect db_args;
   BootRoute "/" ViewHome; BootRoute "/employees" ViewEmployees].

(** A process for the tests of the top level: every call succeeds except
    [connect], which raises the scripted exception when there is one. *)
Module MemBoot.

Definition mem_framework : Framework :=
  {| fw_world := option exc;
     fw_app := unit;
     fw_conn := unit;
     new_flask := fun _ w => (Ok tt, w);
     enable_cors := fun _ w => (Ok tt, w);
     connect := fun _ w =>
                  match w with
                  | Some e => (Raise e, w)
                  | None => (Ok tt, w)
                  end;
     add_route := fun _ _ _ w => (Ok tt, w);
     run := fun _ _ _ w => (Ok tt, w) |}.

Definition start (w : option exc) : boot mem_framework :=
  @MkBoot mem_framework w [].

End MemBoot.

(** ** A store client that closes its connection *)

(** The store client as it behaves when the server goes away.  The
    connection is up, or the server is gone while the client still holds
    the socket, or the client has closed the connection.  Acquiring a
    cursor touches nothing.  Executing on a connection that is up hands
    the statement to the server; executing when the server is gone raises
    the error of a lost connection and closes the connection; executing on
    a closed connection is refused before anything is sent.  The rows are
    never written.  [received] is the list of the statements that reached
    the server. *)
Module ClosingClient.








End ClosingClient.

(** [raises_at api w e w' l]: in world [w] one of the three store calls
    of the view raises [e], the calls before it having succeeded; [w'] is
    the world that call leaves and [l] the calls made up to and including
    it. *)
Definition raises_at (api : DbApi) (w : world api) (e : exc)
    (w' : world api) (l : list call) : Prop :=
  (api_cursor api w = (Raise e, w') /\ l = [CallCursor]) \/
  (exists c w1,
      api_cursor api w = (Ok c, w1) /\
      api_execute api c select_stmt w1 = (Raise e, w') /\
      l = [CallCursor; CallExecute select_stmt]) \/
  (exists c w1 c' w2,
      api_cursor api w = (Ok c, w1) /\
      api_execute api c select_stmt w1 = (Ok c', w2) /\
      api_fetchall api c' w2 = (Raise e, w') /\
      l = three_calls).

(** * Properties *)

(** ** The exception hierarchy *)

(** The classes that [except Exception] lets through are exactly the
    root and its three other direct subclasses. *)
Lemma issubclass_Exception (c : exc_class) :
  issubclass c Exception =
  match c with
  | BaseException | KeyboardInterrupt | SystemExit | GeneratorExit => false
  | _ => true
  end.
Proof. destruct c; reflexivity. Qed.

Lemma issubclass_refl (c : exc_class) : issubclass c c = true.
Proof. destruct c; reflexivity. Qed.

Lemma issubclass_trans (a b c : exc_class) :
  issubclass a b = true -> issubclass b c = true -> issubclass a c = true.
Proof. destruct a, b; try discriminate; destruct c; auto. Qed.

(** ** Comprehensions and the encoder *)

Lemma comprehension_ok {A B} (f : A -> reply B) (l : list A) (ds : list B) :
  comprehension f l = Ok ds <-> Forall2 (fun a d => f a = Ok d) l ds.
Proof.
  revert ds; induction l as [|a l IH]; intros ds; simpl.
  - split.
    + intros H; injection H as <-; constructor.
    + intros H; inversion H; reflexivity.
  - split.
    + destruct (f a) as [d|e] eqn:Hfa; simpl; [|discriminate].
      destruct (comprehension f l) as [ds'|e] eqn:Hl; simpl; [|discriminate].
      intros H; injection H as <-.
      constructor; [assumption | apply IH; reflexivity].
    + intros H; inversion H as [|a' d l' ds' Hfa Hrest]; subst.
      rewrite Hfa; simpl.
      apply IH in Hrest; rewrite Hrest; reflexivity.
Qed.

(** An exception of a comprehension is the exception of one element. *)
Lemma comprehension_raise {A B} (f : A -> reply B) (l : list A) (e : exc) :
  comprehension f l = Raise e -> exists a, In a l /\ f a = Raise e.
Proof.
  induction l as [|a l IH]; simpl; [discriminate|].
  destruct (f a) as [d|e'] eqn:Hfa; simpl.
  - destruct (comprehension f l) as [ds|e'']; simpl; [discriminate|].
    intros H; injection H as ->.
    destruct (IH eq_refl) as (x & Hin & Hx); eauto.
  - intros H; injection H as ->; eauto.
Qed.

(** A comprehension whose elements all evaluate does not raise. *)
Lemma comprehension_total {A B} (f : A -> reply B) (l : list A) :
  Forall (fun a => exists d, f a = Ok d) l -> exists ds, comprehension f l = Ok ds.
Proof.
  induction 1 as [|a l [d Hd] _ [ds IH]]; simpl.
  - eauto.
  - rewrite Hd, IH; simpl; eauto.
Qed.

(** A comprehension with an element that raises does raise. *)
Lemma comprehension_some_raise {A B} (f : A -> reply B) (l : list A) :
  Exists (fun a => exists e, f a = Raise e) l ->
  exists e, comprehension f l = Raise e.
Proof.
  induction 1 as [a l [e He]|a l _ [e IH]]; simpl.
  - rewrite He; simpl; eauto.
  - destruct (f a); simpl; [|eauto].
    rewrite IH; simpl; eauto.
Qed.

(** On a list the encoder is the comprehension of itself. *)
Lemma to_json_list (xs : list pyval) :
  to_json (PyList xs) =
  reply_bind (comprehension to_json xs) (fun js => Ok (JArr js)).
Proof.
  simpl; f_equal.
  induction xs as [|x xs IH]; simpl; [reflexivity|].
  destruct (to_json x); simpl; [|reflexivity].
  rewrite IH; reflexivity.
Qed.

(** The encoding of the dictionary built from a row. *)
Lemma to_json_record (v0 v1 : pyval) :
  to_json (PyDict [("id", v0); ("name", v1)]) =
  reply_bind (to_json v0) (fun j0 =>
  reply_bind (to_json v1) (fun j1 =>
  Ok (JObj [("id", j0); ("name", j1)]))).
Proof.
  simpl; destruct (to_json v0); simpl; [|reflexivity].
  destruct (to_json v1); reflexivity.
Qed.

(** ** The view, step by step *)

Section ViewLemmas.

Variable api : DbApi.

(** When the three store calls succeed the body is lines 26-27 on the
    fetched rows, and the three calls are on record. *)
Lemma body_fetches (s : state api) (rows : list row) :
  fetches api (store s) rows ->
  exists w, employees_body api s = (finish rows, MkState w (calls s ++ three_calls)).
Proof.
  intros (c & w1 & c' & w2 & w3 & Hc & He & Hf).
  exists w3.
  unfold employees_body, bind, db_cursor, cursor_execute, cursor_fetchall, lift, ret.
  rewrite Hc; simpl.
  change "SELECT * FROM employees;" with select_stmt.
  rewrite He; simpl. rewrite Hf; simpl.
  rewrite <- !app_assoc; simpl.
  unfold finish.
  destruct (comprehension record_of_row rows) as [data|e]; simpl; [|reflexivity].
  destruct (jsonify (PyList data)); reflexivity.
Qed.

(** When a store call raises, the body raises the same exception, and
    the calls on record end with the one that raised. *)
Lemma body_fails (s : state api) (e : exc) :
  fails_with api (store s) e ->
  exists w l,
    employees_body api s = (Raise e, MkState w (calls s ++ l)) /\
    (l = [CallCursor] \/ l = [CallCursor; CallExecute select_stmt] \/ l = three_calls).
Proof.
  unfold employees_body, bind, db_cursor, cursor_execute, cursor_fetchall, lift, ret.
  change "SELECT * FROM employees;" with select_stmt.
  intros [(w1 & Hc) | [(c & w1 & w2 & Hc & He) | (c & w1 & c' & w2 & w3 & Hc & He & Hf)]].
  - exists w1, [CallCursor]; rewrite Hc; auto.
  - exists w2, [CallCursor; CallExecute select_stmt].
    rewrite Hc; simpl; rewrite He; simpl.
    rewrite <- !app_assoc; auto.
  - exists w3, three_calls.
    rewrite Hc; simpl; rewrite He; simpl; rewrite Hf; simpl.
    rewrite <- !app_assoc; auto.
Qed.

(** In every world the three calls either all succeed or one of them
    raises. *)
Lemma fetches_or_fails (w : world api) :
  (exists rows, fetches api w rows) \/ (exists e, fails_with api w e).
Proof.
  unfold fetches, fails_with.
  destruct (api_cursor api w) as [[c|e] w1] eqn:Hc.
  - destruct (api_execute api c select_stmt w1) as [[c'|e] w2] eqn:He.
    + destruct (api_fetchall api c' w2) as [[rows|e] w3] eqn:Hf.
      * left; exists rows, c, w1, c', w2, w3; auto.
      * right; exists e; right; right; exists c, w1, c', w2, w3; auto.
    + right; exists e; right; left; exists c, w1, w2; auto.
  - right; exists e; left; exists w1; auto.
Qed.

(** The handler of the [except] clause on an instance of [Exception]. *)
Lemma employees_catches (s s' : state api) (e : exc) :
  employees_body api s = (Raise e, s') ->
  isinstance e Exception = true ->
  employees api s = (Ok (RvStr (str e)), s').
Proof.
  intros Hb He; unfold employees, try_except, ret; rewrite Hb, He; reflexivity.
Qed.

Lemma employees_passes (s s' : state api) (e : exc) :
  employees_body api s = (Raise e, s') ->
  isinstance e Exception = false ->
  employees api s = (Raise e, s').
Proof.
  intros Hb He; unfold employees, try_except; rewrite Hb, He; reflexivity.
Qed.

Lemma employees_returns (s s' : state api) (rv : view_rv) :
  employees_body api s = (Ok rv, s') ->
  employees api s = (Ok rv, s').
Proof.
  intros Hb; unfold employees, try_except; rewrite Hb; reflexivity.
Qed.

End ViewLemmas.

(** ** Lines 26-27 *)

(** What indexing and the encoder raise is an instance of [Exception]. *)
Lemma record_of_row_raise (r : row) (e : exc) :
  record_of_row r = Raise e -> e = MkExc IndexError "tuple index out of range".
Proof.
  destruct r as [|v0 [|v1 r]]; cbn; intros H; congruence.
Qed.

Lemma record_of_row_ok (r : row) (d : pyval) :
  record_of_row r = Ok d <->
  exists v0 v1,
    nth_error r 0 = Some v0 /\ nth_error r 1 = Some v1 /\
    d = PyDict [("id", v0); ("name", v1)].
Proof.
  split.
  - destruct r as [|v0 [|v1 r]]; cbn; intros H; try discriminate.
    injection H as <-; eauto.
  - intros (v0 & v1 & H0 & H1 & ->).
    unfold record_of_row, getitem; rewrite H0, H1; reflexivity.
Qed.

Lemma record_of_row_short (r : row) :
  List.length r < 2 ->
  record_of_row r = Raise (MkExc IndexError "tuple index out of range").
Proof.
  destruct r as [|v0 [|v1 r]]; simpl; intros H; try reflexivity; lia.
Qed.

Lemma record_of_row_long (r : row) :
  2 <= List.length r -> exists d, record_of_row r = Ok d.
Proof.
  destruct r as [|v0 [|v1 r]]; simpl; intros H; try lia.
  eexists; reflexivity.
Qed.

Lemma Forall2_nth {A B} (P : A -> B -> Prop) (l : list A) (l' : list B) :
  Forall2 P l l' ->
  forall k a, nth_error l k = Some a -> exists b, nth_error l' k = Some b /\ P a b.
Proof.
  induction 1 as [|x y l l' Hxy _ IH]; intros [|k] a; simpl; try discriminate.
  - intros H; injection H as <-; eauto.
  - apply IH.
Qed.

(** A successful run of lines 26-27 yields one object per row, in the
    order of the rows. *)
Lemma finish_ok (rows : list row) (resp : response) :
  finish rows = Ok (RvResponse resp) ->
  exists js, resp = json_response (JArr js) /\ Forall2 object_of_row rows js.
Proof.
  unfold finish, jsonify.
  destruct (comprehension record_of_row rows) as [data|] eqn:Hdata;
    cbn [reply_bind]; [|discriminate].
  rewrite to_json_list.
  destruct (comprehension to_json data) as [js|] eqn:Hjs; simpl; [|discriminate].
  intros H; injection H as <-.
  exists js; split; [reflexivity|].
  apply comprehension_ok in Hdata; apply comprehension_ok in Hjs.
  revert js Hjs.
  induction Hdata as [|r d rows data Hr _ IH]; intros js Hjs.
  - inversion Hjs; constructor.
  - inversion Hjs as [|d' j data' js' Hdj Hrest]; subst.
    constructor; [|apply IH; assumption].
    apply record_of_row_ok in Hr; destruct Hr as (v0 & v1 & Hv0 & Hv1 & ->).
    rewrite to_json_record in Hdj.
    destruct (to_json v0) as [j0|] eqn:E0; cbn [reply_bind] in Hdj; [|discriminate].
    destruct (to_json v1) as [j1|] eqn:E1; cbn [reply_bind] in Hdj; [|discriminate].
    injection Hdj as <-.
    exists v0, v1, j0, j1; auto.
Qed.

(** Lines 26-27 succeed on rows whose first two values have an
    encoding. *)
Lemma finish_total (rows : list row) :
  Forall encodable rows -> exists resp, finish rows = Ok (RvResponse resp).
Proof.
  intros Hrows; unfold finish, jsonify.
  assert (Hdata : exists data,
             comprehension record_of_row rows = Ok data /\
             Forall (fun d => exists j, to_json d = Ok j) data).
  { induction Hrows as [|r rows (v0 & v1 & j0 & j1 & H0 & H1 & E0 & E1) _ (data & Hd & Hall)].
    - exists []; split; [reflexivity | constructor].
    - exists (PyDict [("id", v0); ("name", v1)] :: data); split.
      + simpl. unfold record_of_row at 1, getitem; rewrite H0, H1; simpl.
        rewrite Hd; reflexivity.
      + constructor; [|assumption].
        rewrite to_json_record, E0, E1; simpl; eauto. }
  destruct Hdata as (data & -> & Hall); cbn [reply_bind].
  rewrite to_json_list.
  destruct (comprehension_total to_json data Hall) as (js & ->); simpl; eauto.
Qed.

(** Lines 26-27 look at the first two values of a row only. *)
Lemma record_of_row_firstn (r : row) :
  record_of_row (firstn 2 r) = record_of_row r.
Proof. destruct r as [|v0 [|v1 r]]; reflexivity. Qed.

Lemma finish_firstn (rows : list row) :
  finish (map (firstn 2) rows) = finish rows.
Proof.
  unfold finish; f_equal.
  induction rows as [|r rows IH]; cbn [map comprehension]; [reflexivity|].
  rewrite record_of_row_firstn, IH; reflexivity.
Qed.

(** ** Runs of the view *)

Section Runs.

Variable api : DbApi.

Lemma employees_caught (s : state api) :
  employees api s = (caught (fst (employees_body api s)), snd (employees_body api s)).
Proof.
  unfold employees, try_except, ret, caught.
  destruct (employees_body api s) as [[rv|e] s']; simpl; [reflexivity|].
  destruct (isinstance e Exception); reflexivity.
Qed.

(** The result of a run in which the three store calls succeed. *)
Lemma employees_fetches (s : state api) (rows : list row) :
  fetches api (store s) rows ->
  fst (employees api s) = caught (finish rows).
Proof.
  intros Hf; destruct (body_fetches api s rows Hf) as (w & Hb).
  rewrite employees_caught, Hb; reflexivity.
Qed.

(** The result of a run in which a store call raises. *)
Lemma employees_fails (s : state api) (e : exc) :
  fails_with api (store s) e ->
  fst (employees api s) = caught (Raise e).
Proof.
  intros Hf; destruct (body_fails api s e Hf) as (w & l & Hb & _).
  rewrite employees_caught, Hb; reflexivity.
Qed.

(** The state a run ends in: the world as the last store call left it,
    and the calls made on record.  The store calls stop at the first one
    that raises. *)
Lemma employees_trace (s : state api) :
  (exists e w1,
      api_cursor api (store s) = (Raise e, w1) /\
      snd (employees api s) = MkState w1 (calls s ++ [CallCursor])) \/
  (exists c w1 e w2,
      api_cursor api (store s) = (Ok c, w1) /\
      api_execute api c select_stmt w1 = (Raise e, w2) /\
      snd (employees api s) =
        MkState w2 (calls s ++ [CallCursor; CallExecute select_stmt])) \/
  (exists c w1 c' w2 r w3,
      api_cursor api (store s) = (Ok c, w1) /\
      api_execute api c select_stmt w1 = (Ok c', w2) /\
      api_fetchall api c' w2 = (r, w3) /\
      snd (employees api s) = MkState w3 (calls s ++ three_calls)).
Proof.
  rewrite employees_caught; cbn [snd].
  unfold employees_body, bind, db_cursor, cursor_execute, cursor_fetchall, lift, ret.
  change "SELECT * FROM employees;" with select_stmt.
  destruct (api_cursor api (store s)) as [[c|e] w1] eqn:Hc; cbn [store calls].
  - destruct (api_execute api c select_stmt w1) as [[c'|e] w2] eqn:He; cbn [store calls].
    + destruct (api_fetchall api c' w2) as [r w3] eqn:Hf.
      right; right; exists c, w1, c', w2, r, w3; repeat split; auto.
      rewrite <- !app_assoc; cbn [app].
      destruct r as [rows|e]; [|reflexivity].
      destruct (comprehension record_of_row rows) as [data|e]; [|reflexivity].
      destruct (jsonify (PyList data)); reflexivity.
    + right; left; exists c, w1, e, w2; repeat split; auto.
      rewrite <- !app_assoc; reflexivity.
  - left; exists e, w1; auto.
Qed.



End Runs.

(** ** The claims *)

(** C1. Whatever rows the store delivers, a call of [employees] that
    takes the success path returns a JSON array with one element per
    row: it has the length of the row list, and its k-th element is the
    object whose [id] member is the first column value and whose [name]
    member is the second column value of the k-th row, in the order the
    store returned the rows.  The success path is taken whenever the first
    two values of every row have a JSON encoding.  For the rows
    (1, Alice), (2, Bob) the array is
    [{id: 1, name: Alice}, {id: 2, name: Bob}]. *)
Theorem employees_lists_rows :
  (forall (api : DbApi) (s s' : state api) (rows : list row) (resp : response),
      fetches api (store s) rows ->
      employees api s = (Ok (RvResponse resp), s') ->
      exists js,
        make_response (RvResponse resp) = json_response (JArr js) /\
        List.length js = List.length rows /\
        forall k r, nth_error rows k = Some r ->
                    exists j, nth_error js k = Some j /\ object_of_row r j) /\
  (forall (api : DbApi) (s : state api) (rows : list row),
      fetches api (store s) rows ->
      Forall encodable rows ->
      exists resp s', employees api s = (Ok (RvResponse resp), s')) /\
  fst (employees MemStore.mem_api (fresh MemStore.mem_api (MemStore.serving alice_bob))) =
  Ok (RvResponse (json_response
        (JArr [JObj [("id", JNum 1); ("name", JStr "Alice")];
               JObj [("id", JNum 2); ("name", JStr "Bob")]]))).
Proof.
  split; [|split].
  - intros api s s' rows resp Hf Hrun.
    destruct (body_fetches api s rows Hf) as (w & Hb).
    unfold employees, try_except in Hrun; rewrite Hb in Hrun.
    destruct (finish rows) as [rv|e] eqn:Hfin.
    + injection Hrun as -> _.
      destruct (finish_ok rows _ Hfin) as (js & -> & Hall).
      exists js; split; [reflexivity|]; split.
      * symmetry; eapply Forall2_length; eassumption.
      * intros k r Hk; eapply Forall2_nth; eassumption.
    + destruct (isinstance e Exception); discriminate.
  - intros api s rows Hf Henc.
    destruct (body_fetches api s rows Hf) as (w & Hb).
    destruct (finish_total rows Henc) as (resp & Hfin).
    rewrite Hfin in Hb.
    exists resp; eexists; apply employees_returns; eassumption.
  - reflexivity.
Qed.

Lemma employees_lists_rows_witness :
  exists js,
    make_response
      (RvResponse (json_response
         (JArr [JObj [("id", JNum 1); ("name", JStr "Alice")];
                JObj [("id", JNum 2); ("name", JStr "Bob")]]))) =
    json_response (JArr js) /\
    List.length js = List.length alice_bob /\
    forall k r, nth_error alice_bob k = Some r ->
                exists j, nth_error js k = Some j /\ object_of_row r j.
Proof.
  apply (proj1 employees_lists_rows MemStore.mem_api
           (fresh MemStore.mem_api (MemStore.serving alice_bob))
           (@MkState MemStore.mem_api (MemStore.serving alice_bob) three_calls)
           alice_bob).
  - exists None, (MemStore.serving alice_bob), (Some alice_bob),
      (MemStore.serving alice_bob), (MemStore.serving alice_bob).
    repeat split.
  - reflexivity.
Defined.

(** C2, as amended.  Every exception that is an instance of [Exception]
    and is raised in the body of the [try] statement (while acquiring the
    cursor, executing the statement, fetching, mapping the rows or
    encoding them) is caught: the view returns [str(e)], which the
    framework sends as the body of a response with status 200; the
    exception does not reach the caller, and no store call is made a
    second time (the calls on record are an initial part of cursor,
    execute, fetch). *)
Theorem employees_catches_Exception :
  forall (api : DbApi) (s : state api) (e : exc),
    raises_in_body api (store s) e ->
    isinstance e Exception = true ->
    exists s',
      employees api s = (Ok (RvStr (str e)), s') /\
      make_response (RvStr (str e)) = MkResponse 200 "text/html" (Text (str e)) /\
      exists l rest, calls s' = calls s ++ l /\ three_calls = l ++ rest.
Proof.
  intros api s e Hraise He.
  assert (Hb : exists w l rest,
             employees_body api s = (Raise e, MkState w (calls s ++ l)) /\
             three_calls = l ++ rest).
  { destruct Hraise as [Hf | (rows & Hf & Hfin)].
    - destruct (body_fails api s e Hf) as (w & l & Hb & [-> | [-> | ->]]).
      + exists w, [CallCursor], [CallExecute select_stmt; CallFetchall]; auto.
      + exists w, [CallCursor; CallExecute select_stmt], [CallFetchall]; auto.
      + exists w, three_calls, []; auto.
    - destruct (body_fetches api s rows Hf) as (w & Hb).
      rewrite Hfin in Hb.
      exists w, three_calls, []; auto. }
  destruct Hb as (w & l & rest & Hb & Hpre).
  exists (MkState w (calls s ++ l)); split; [|split].
  - apply employees_catches; assumption.
  - reflexivity.
  - exists l, rest; auto.
Qed.

Lemma employees_catches_Exception_witness :
  exists s',
    employees MemStore.mem_api
      (fresh MemStore.mem_api
         (MemStore.failing MemStore.AtExecute MemStore.connection_lost alice_bob)) =
    (Ok (RvStr (str MemStore.connection_lost)), s') /\
    make_response (RvStr (str MemStore.connection_lost)) =
    MkResponse 200 "text/html" (Text (str MemStore.connection_lost)) /\
    exists l rest, calls s' = [] ++ l /\ three_calls = l ++ rest.
Proof.
  apply (employees_catches_Exception MemStore.mem_api
           (fresh MemStore.mem_api
              (MemStore.failing MemStore.AtExecute MemStore.connection_lost alice_bob))).
  - left; right; left.
    exists None,
      (MemStore.failing MemStore.AtExecute MemStore.connection_lost alice_bob),
      (MemStore.failing MemStore.AtExecute MemStore.connection_lost alice_bob).
    split; reflexivity.
  - reflexivity.
Defined.

(** C2, as stated, fails: [SystemExit] is not an instance of [Exception];
    raised by the store client while the statement runs, it passes the
    [except] clause and reaches the caller. *)
Lemma employees_lets_SystemExit_through :
  ~ (forall (api : DbApi) (s : state api) (e : exc),
        raises_in_body api (store s) e ->
        exists s', employees api s = (Ok (RvStr (str e)), s')).
Proof.
  intros H.
  destruct (H MemStore.mem_api
              (fresh MemStore.mem_api
                 (MemStore.failing MemStore.AtExecute (MkExc SystemExit "1") alice_bob))
              (MkExc SystemExit "1")) as (s' & Hrun).
  - left; right; left.
    exists None,
      (MemStore.failing MemStore.AtExecute (MkExc SystemExit "1") alice_bob),
      (MemStore.failing MemStore.AtExecute (MkExc SystemExit "1") alice_bob).
    split; reflexivity.
  - discriminate Hrun.
Qed.

(** C3. When the statement delivers no row, [employees] returns the
    empty JSON array: a JSON response whose value is [[]], which is
    neither [null] nor the string of the failure path. *)
Theorem empty_table_gives_empty_array :
  forall (api : DbApi) (s : state api),
    fetches api (store s) [] ->
    exists s',
      employees api s = (Ok (RvResponse (json_response (JArr []))), s') /\
      payload (make_response (RvResponse (json_response (JArr [])))) = Json (JArr []) /\
      JArr [] <> JNull /\
      forall msg, RvResponse (json_response (JArr [])) <> RvStr msg.
Proof.
  intros api s Hf.
  destruct (body_fetches api s [] Hf) as (w & Hb).
  exists (MkState w (calls s ++ three_calls)); repeat split; try discriminate.
  apply employees_returns; exact Hb.
Qed.

Lemma empty_table_gives_empty_array_witness :
  exists s',
    employees MemStore.mem_api (fresh MemStore.mem_api (MemStore.serving [])) =
    (Ok (RvResponse (json_response (JArr []))), s') /\
    payload (make_response (RvResponse (json_response (JArr [])))) = Json (JArr []) /\
    JArr [] <> JNull /\
    forall msg, RvResponse (json_response (JArr [])) <> RvStr msg.
Proof.
  apply (empty_table_gives_empty_array MemStore.mem_api
           (fresh MemStore.mem_api (MemStore.serving []))).
  exists None, (MemStore.serving []), (Some []), (MemStore.serving []), (MemStore.serving []).
  repeat split.
Defined.

(** C4. The mapping from a row to a record is by position: the value at
    position 0 becomes [id] and the value at position 1 becomes [name];
    rows that agree on their first two positions give the same record,
    and stores that deliver rows agreeing on their first two positions
    give the same result, so further columns have no effect; the names of
    the columns play no part: the stand-in store answers the same under
    any column names, and a table whose columns are declared in the order
    [name], [id] has its names put under [id]. *)
Theorem mapping_is_positional :
  (forall (r : row) (v0 v1 : pyval),
      nth_error r 0 = Some v0 -> nth_error r 1 = Some v1 ->
      record_of_row r = Ok (PyDict [("id", v0); ("name", v1)])) /\
  (forall r r' : row,
      firstn 2 r = firstn 2 r' -> record_of_row r = record_of_row r') /\
  (forall (api api' : DbApi) (s : state api) (s' : state api') (rows rows' : list row),
      fetches api (store s) rows -> fetches api' (store s') rows' ->
      map (firstn 2) rows = map (firstn 2) rows' ->
      fst (employees api s) = fst (employees api' s')) /\
  (forall (f : option (MemStore.site * exc)) (cols cols' : list string) (rows : list row),
      fst (employees MemStore.mem_api
             (fresh MemStore.mem_api (MemStore.MkMem f cols rows))) =
      fst (employees MemStore.mem_api
             (fresh MemStore.mem_api (MemStore.MkMem f cols' rows)))) /\
  fst (employees MemStore.mem_api
         (fresh MemStore.mem_api
            (MemStore.MkMem None ["name"; "id"] [[PyStr "Alice"; PyInt 1]]))) =
  Ok (RvResponse (json_response (JArr [JObj [("id", JStr "Alice"); ("name", JNum 1)]]))).
Proof.
  repeat apply conj.
  - intros r v0 v1 H0 H1; apply record_of_row_ok; eauto.
  - intros r r' H.
    rewrite <- (record_of_row_firstn r), <- (record_of_row_firstn r'), H; reflexivity.
  - intros api api' s s' rows rows' Hf Hf' Hrows.
    rewrite (employees_fetches api s rows Hf), (employees_fetches api' s' rows' Hf').
    rewrite <- (finish_firstn rows), <- (finish_firstn rows'), Hrows; reflexivity.
  - intros f cols cols' rows.
    rewrite !employees_caught; cbn [fst]; f_equal.
    unfold employees_body, bind, db_cursor, cursor_execute, cursor_fetchall, lift, ret.
    destruct f as [[[] e]|]; cbn; try reflexivity;
      destruct (comprehension record_of_row rows) as [data|e']; cbn; try reflexivity;
      destruct (jsonify (PyList data)); reflexivity.
  - reflexivity.
Qed.

Lemma mapping_is_positional_witness :
  record_of_row [PyInt 1; PyStr "Alice"; PyStr "Sales"] =
  Ok (PyDict [("id", PyInt 1); ("name", PyStr "Alice")]) /\
  record_of_row [PyInt 1; PyStr "Alice"; PyStr "Sales"] =
  record_of_row [PyInt 1; PyStr "Alice"].
Proof.
  split.
  - apply (proj1 mapping_is_positional
             [PyInt 1; PyStr "Alice"; PyStr "Sales"] (PyInt 1) (PyStr "Alice"));
      reflexivity.
  - apply (proj1 (proj2 mapping_is_positional)
             [PyInt 1; PyStr "Alice"; PyStr "Sales"] [PyInt 1; PyStr "Alice"]);
      reflexivity.
Defined.

(** C5. When every fetched row has at least two columns the mapping of
    line 26 does not raise: it yields one record per row.  When some
    fetched row has fewer than two columns, the [IndexError] of the
    subscript is caught by the [except] clause like any other failure:
    the view returns its message, and nothing is raised to the caller. *)
Theorem short_rows_are_reported :
  (forall rows : list row,
      Forall (fun r => 2 <= List.length r) rows ->
      exists data,
        comprehension record_of_row rows = Ok data /\
        List.length data = List.length rows) /\
  (forall (api : DbApi) (s : state api) (rows : list row),
      fetches api (store s) rows ->
      Exists (fun r => List.length r < 2) rows ->
      exists s',
        employees api s = (Ok (RvStr "tuple index out of range"), s')).
Proof.
  split.
  - intros rows Hrows.
    destruct (comprehension_total record_of_row rows) as (data & Hdata).
    + eapply Forall_impl; [|exact Hrows].
      intros r Hr; apply record_of_row_long; exact Hr.
    + exists data; split; [assumption|].
      apply comprehension_ok in Hdata.
      symmetry; eapply Forall2_length; eassumption.
  - intros api s rows Hf Hshort.
    destruct (body_fetches api s rows Hf) as (w & Hb).
    destruct (comprehension_some_raise record_of_row rows) as (e & He).
    + eapply Exists_impl; [|exact Hshort].
      intros r Hr; eexists; apply record_of_row_short; exact Hr.
    + destruct (comprehension_raise record_of_row rows e He) as (r & _ & Hr).
      apply record_of_row_raise in Hr; subst e.
      exists (MkState w (calls s ++ three_calls)).
      unfold finish in Hb; rewrite He in Hb.
      apply (employees_catches api s _ _ Hb); reflexivity.
Qed.

Lemma short_rows_are_reported_witness :
  (exists data,
      comprehension record_of_row alice_bob = Ok data /\
      List.length data = List.length alice_bob) /\
  (exists s',
      employees MemStore.mem_api
        (fresh MemStore.mem_api (MemStore.serving [[PyInt 1; PyStr "Alice"]; [PyInt 2]])) =
      (Ok (RvStr "tuple index out of range"), s')).
Proof.
  split.
  - apply (proj1 short_rows_are_reported alice_bob).
    repeat constructor.
  - apply (proj2 short_rows_are_reported MemStore.mem_api
             (fresh MemStore.mem_api (MemStore.serving [[PyInt 1; PyStr "Alice"]; [PyInt 2]]))
             [[PyInt 1; PyStr "Alice"]; [PyInt 2]]).
    + exists None, (MemStore.serving [[PyInt 1; PyStr "Alice"]; [PyInt 2]]),
        (Some [[PyInt 1; PyStr "Alice"]; [PyInt 2]]),
        (MemStore.serving [[PyInt 1; PyStr "Alice"]; [PyInt 2]]),
        (MemStore.serving [[PyInt 1; PyStr "Alice"]; [PyInt 2]]).
      repeat split.
    + apply Exists_cons_tl, Exists_cons_hd; simpl; lia.
Defined.

(** C6. In every state, whatever the store, [home] returns the fixed
    greeting, which the framework sends with status 200; it makes no store
    call and leaves the state as it was. *)
Theorem home_greets :
  forall (api : DbApi) (s : state api),
    home api s = (Ok (RvStr "<h2>Hello from Flask App on EC2 via ALB!</h2>"), s) /\
    make_response (RvStr "<h2>Hello from Flask App on EC2 via ALB!</h2>") =
    MkResponse 200 "text/html" (Text "<h2>Hello from Flask App on EC2 via ALB!</h2>").
Proof. intros api s; split; reflexivity. Qed.

(** C7. When the store connection is unavailable, that is, when one of
    the three store calls raises an error of the store client, [employees]
    returns the text of that error: a string, sent as a [text/html]
    response with status 200 and not as a JSON response; nothing is raised
    to the caller.  On a closed connection the text is the client's
    description of the connection error. *)
Theorem employees_reports_unavailable_store :
  (forall (api : DbApi) (s : state api) (e : exc),
      fails_with api (store s) e ->
      isinstance e MySQLError = true ->
      exists s',
        employees api s = (Ok (RvStr (str e)), s') /\
        make_response (RvStr (str e)) = MkResponse 200 "text/html" (Text (str e)) /\
        forall j, make_response (RvStr (str e)) <> json_response j) /\
  fst (employees MemStore.mem_api
         (fresh MemStore.mem_api
            (MemStore.failing MemStore.AtExecute MemStore.connection_closed alice_bob))) =
  Ok (RvStr "(0, '')").
Proof.
  split; [|reflexivity].
  intros api s e Hf He.
  destruct (body_fails api s e Hf) as (w & l & Hb & _).
  exists (MkState w (calls s ++ l)); repeat split; try discriminate.
  apply employees_catches; [assumption|].
  apply (issubclass_trans (exc_cls e) MySQLError Exception He); reflexivity.
Qed.

Lemma employees_reports_unavailable_store_witness :
  exists s',
    employees MemStore.mem_api
      (fresh MemStore.mem_api
         (MemStore.failing MemStore.AtCursor MemStore.connection_closed [])) =
    (Ok (RvStr (str MemStore.connection_closed)), s') /\
    make_response (RvStr (str MemStore.connection_closed)) =
    MkResponse 200 "text/html" (Text (str MemStore.connection_closed)) /\
    forall j, make_response (RvStr (str MemStore.connection_closed)) <> json_response j.
Proof.
  apply (proj1 employees_reports_unavailable_store MemStore.mem_api
           (fresh MemStore.mem_api
              (MemStore.failing MemStore.AtCursor MemStore.connection_closed []))).
  - left.
    exists (MemStore.failing MemStore.AtCursor MemStore.connection_closed []).
    reflexivity.
  - reflexivity.
Defined.







(** C10. The mapping neither checks nor converts types: whatever the two
    leading values of a row are, the record is built and holds them as
    they are, [id] being the first and [name] the second; a value that is
    not an integer is taken as [id] like any other.  The record has an
    integer [id] and a string [name] exactly when the store delivered an
    integer and a string in these positions. *)
Theorem mapping_is_verbatim :
  (forall (v0 v1 : pyval) (rest : row),
      record_of_row (v0 :: v1 :: rest) = Ok (PyDict [("id", v0); ("name", v1)])) /\
  (forall (r : row) (d : pyval),
      record_of_row r = Ok d ->
      dict_get d "id" = nth_error r 0 /\ dict_get d "name" = nth_error r 1) /\
  (forall (r : row) (d : pyval),
      record_of_row r = Ok d ->
      (typed_record d = true <->
       exists n s, nth_error r 0 = Some (PyInt n) /\ nth_error r 1 = Some (PyStr s))) /\
  record_of_row [PyStr "7"; PyNone] = Ok (PyDict [("id", PyStr "7"); ("name", PyNone)]).
Proof.
  repeat apply conj; try reflexivity.
  - intros r d H; apply record_of_row_ok in H.
    destruct H as (v0 & v1 & H0 & H1 & ->); rewrite H0, H1; split; reflexivity.
  - intros r d H; apply record_of_row_ok in H.
    destruct H as (v0 & v1 & H0 & H1 & ->); rewrite H0, H1.
    unfold typed_record; cbn.
    split.
    + destruct v0, v1; try discriminate; eauto.
    + intros (n & s & E0 & E1); injection E0 as ->; injection E1 as ->; reflexivity.
Qed.

Lemma mapping_is_verbatim_witness :
  (dict_get (PyDict [("id", PyStr "7"); ("name", PyNone)]) "id" =
   nth_error [PyStr "7"; PyNone] 0 /\
   dict_get (PyDict [("id", PyStr "7"); ("name", PyNone)]) "name" =
   nth_error [PyStr "7"; PyNone] 1) /\
  (typed_record (PyDict [("id", PyInt 1); ("name", PyStr "Alice")]) = true <->
   exists n s,
     nth_error [PyInt 1; PyStr "Alice"] 0 = Some (PyInt n) /\
     nth_error [PyInt 1; PyStr "Alice"] 1 = Some (PyStr s)).
Proof.
  split.
  - apply (proj1 (proj2 mapping_is_verbatim) [PyStr "7"; PyNone]); reflexivity.
  - apply (proj1 (proj2 (proj2 mapping_is_verbatim)) [PyInt 1; PyStr "Alice"]); reflexivity.
Defined.

(** ** Further properties of the view *)

(** The encoder raises nothing but [TypeError]. *)
Lemma to_json_raise (v : pyval) :
  forall e, to_json v = Raise e -> exc_cls e = TypeError.
Proof.
  revert v; fix rec 1; intros v e.
  destruct v as [ | b | n | s | bs | xs | items]; cbn [to_json]; try discriminate.
  - intros H; injection H as <-; reflexivity.
  - induction xs as [|x xs IH]; [discriminate|].
    destruct (to_json x) as [j|e'] eqn:Hx; cbn [reply_bind].
    + destruct ((fix go (l : list pyval) : reply (list json) :=
           match l with
           | [] => Ok []
           | x :: l' =>
               reply_bind (to_json x) (fun j =>
               reply_bind (go l') (fun js => Ok (j :: js)))
           end) xs) as [js|e'']; cbn [reply_bind] in *; [discriminate|].
      exact IH.
    + intros H; injection H as <-; exact (rec x e' Hx).
  - induction items as [|[k x] items IH]; [discriminate|].
    destruct (to_json x) as [j|e'] eqn:Hx; cbn [reply_bind].
    + destruct ((fix go (l : list (string * pyval)) : reply (list (string * json)) :=
           match l with
           | [] => Ok []
           | (k, x) :: l' =>
               reply_bind (to_json x) (fun j =>
               reply_bind (go l') (fun ms => Ok ((k, j) :: ms)))
           end) items) as [ms|e'']; cbn [reply_bind] in *; [discriminate|].
      exact IH.
    + intros H; injection H as <-; exact (rec x e' Hx).
Qed.

(** What lines 26-27 raise is an instance of [Exception]. *)
Lemma finish_raise (rows : list row) (e : exc) :
  finish rows = Raise e -> isinstance e Exception = true.
Proof.
  unfold finish, jsonify.
  destruct (comprehension record_of_row rows) as [data|e0] eqn:Hdata; cbn [reply_bind].
  - destruct (to_json (PyList data)) as [j|e0] eqn:Hj; cbn [reply_bind]; [discriminate|].
    intros H; injection H as <-.
    apply to_json_raise in Hj.
    unfold isinstance; rewrite Hj; reflexivity.
  - intros H; injection H as <-.
    destruct (comprehension_raise record_of_row rows e0 Hdata) as (r & _ & Hr).
    apply record_of_row_raise in Hr; subst e0; reflexivity.
Qed.

(** What lines 26-27 return is a JSON response. *)
Lemma finish_returns (rows : list row) (rv : view_rv) :
  finish rows = Ok rv -> exists resp, rv = RvResponse resp.
Proof.
  unfold finish.
  destruct (comprehension record_of_row rows) as [data|]; cbn [reply_bind]; [|discriminate].
  destruct (jsonify (PyList data)) as [resp|]; cbn [reply_bind]; [|discriminate].
  intros H; injection H as <-; eauto.
Qed.

Lemma object_of_row_encodable (rows : list row) (js : list json) :
  Forall2 object_of_row rows js -> Forall encodable rows.
Proof.
  induction 1 as [|r j rows js (v0 & v1 & j0 & j1 & H0 & H1 & E0 & E1 & _) _ IH];
    constructor; [|assumption].
  exists v0, v1, j0, j1; auto.
Qed.

(** X1. An exception that is not an instance of [Exception] and is raised
    by one of the three store calls leaves [employees] as it is: the
    caller receives the very exception and no string in its place; the
    calls on record are those up to and including the call that raised,
    so no store call is made after it, and the world is as that call left
    it. *)
Theorem employees_passes_other_exceptions :
  forall (api : DbApi) (s : state api) (e : exc) (w' : world api) (l : list call),
    raises_at api (store s) e w' l ->
    isinstance e Exception = false ->
    employees api s = (Raise e, MkState w' (calls s ++ l)).
Proof.
  intros api s e w' l Hat He.
  apply employees_passes; [|exact He].
  unfold employees_body, bind, db_cursor, cursor_execute, cursor_fetchall, lift, ret.
  change "SELECT * FROM employees;" with select_stmt.
  destruct Hat as [(Hc & ->) | [(c & w1 & Hc & Hx & ->) |
                                (c & w1 & c' & w2 & Hc & Hx & Hf & ->)]].
  - rewrite Hc; reflexivity.
  - rewrite Hc; cbn [store calls]; rewrite Hx.
    rewrite <- !app_assoc; reflexivity.
  - rewrite Hc; cbn [store calls]; rewrite Hx; cbn [store calls]; rewrite Hf.
    rewrite <- !app_assoc; reflexivity.
Qed.

Lemma employees_passes_other_exceptions_witness :
  employees MemStore.mem_api
    (fresh MemStore.mem_api
       (MemStore.failing MemStore.AtExecute (MkExc KeyboardInterrupt "") alice_bob)) =
  (Raise (MkExc KeyboardInterrupt ""),
   @MkState MemStore.mem_api
     (MemStore.failing MemStore.AtExecute (MkExc KeyboardInterrupt "") alice_bob)
     ([] ++ [CallCursor; CallExecute select_stmt])).
Proof.
  apply (employees_passes_other_exceptions MemStore.mem_api
           (fresh MemStore.mem_api
              (MemStore.failing MemStore.AtExecute (MkExc KeyboardInterrupt "") alice_bob))).
  - right; left.
    exists None,
      (MemStore.failing MemStore.AtExecute (MkExc KeyboardInterrupt "") alice_bob).
    repeat split.
  - reflexivity.
Defined.

(** X2. Whatever [employees] raises was raised by one of the three store
    calls and is not an instance of [Exception]: the errors of the row
    mapping and of the encoder never leave the view. *)
Theorem employees_raises_only_store_exceptions :
  forall (api : DbApi) (s s' : state api) (e : exc),
    employees api s = (Raise e, s') ->
    isinstance e Exception = false /\ fails_with api (store s) e.
Proof.
  intros api s s' e Hrun.
  assert (Hfst : fst (employees api s) = Raise e) by (rewrite Hrun; reflexivity).
  destruct (fetches_or_fails api (store s)) as [(rows & Hf) | (e0 & Hf)].
  - rewrite (employees_fetches api s rows Hf) in Hfst.
    unfold caught in Hfst.
    destruct (finish rows) as [rv|e1] eqn:Hfin; [discriminate|].
    rewrite (finish_raise rows e1 Hfin) in Hfst; discriminate.
  - rewrite (employees_fails api s e0 Hf) in Hfst.
    unfold caught in Hfst.
    destruct (isinstance e0 Exception) eqn:He0; [discriminate|].
    injection Hfst as <-; auto.
Qed.

Lemma employees_raises_only_store_exceptions_witness :
  isinstance (MkExc SystemExit "1") Exception = false /\
  fails_with MemStore.mem_api
    (store (fresh MemStore.mem_api
              (MemStore.failing MemStore.AtExecute (MkExc SystemExit "1") alice_bob)))
    (MkExc SystemExit "1").
Proof.
  apply (employees_raises_only_store_exceptions MemStore.mem_api
           (fresh MemStore.mem_api
              (MemStore.failing MemStore.AtExecute (MkExc SystemExit "1") alice_bob))
           (@MkState MemStore.mem_api
              (MemStore.failing MemStore.AtExecute (MkExc SystemExit "1") alice_bob)
              [CallCursor; CallExecute select_stmt])).
  reflexivity.
Defined.

(** X3. On a store whose calls raise instances of [Exception] only,
    [employees] never raises: every call returns a value to the
    framework. *)
Theorem employees_returns_on_sound_store :
  forall (api : DbApi) (s : state api),
    (forall e, fails_with api (store s) e -> isinstance e Exception = true) ->
    exists rv s', employees api s = (Ok rv, s').
Proof.
  intros api s Hsound.
  assert (Hfst : exists rv, fst (employees api s) = Ok rv).
  { destruct (fetches_or_fails api (store s)) as [(rows & Hf) | (e & Hf)].
    - rewrite (employees_fetches api s rows Hf); unfold caught.
      destruct (finish rows) as [rv|e] eqn:Hfin; [eauto|].
      rewrite (finish_raise rows e Hfin); eauto.
    - rewrite (employees_fails api s e Hf); unfold caught.
      rewrite (Hsound e Hf); eauto. }
  destruct Hfst as (rv & Hfst).
  destruct (employees api s) as [r s'] eqn:Hrun; cbn [fst] in Hfst; subst r.
  exists rv, s'; reflexivity.
Qed.

Lemma employees_returns_on_sound_store_witness :
  exists rv s',
    employees MemStore.mem_api
      (fresh MemStore.mem_api
         (MemStore.failing MemStore.AtFetchall MemStore.connection_lost alice_bob)) =
    (Ok rv, s').
Proof.
  apply (employees_returns_on_sound_store MemStore.mem_api
           (fresh MemStore.mem_api
              (MemStore.failing MemStore.AtFetchall MemStore.connection_lost alice_bob))).
  intros e [(w1 & H) | [(c & w1 & w2 & H1 & H2) | (c & w1 & c' & w2 & w3 & H1 & H2 & H3)]].
  - discriminate H.
  - injection H1 as <- <-; discriminate H2.
  - injection H1 as <- <-; injection H2 as <- <-; injection H3 as <- _; reflexivity.
Defined.

(** X4. Every value [employees] returns is of one of two kinds: the JSON
    response whose value is the array of the objects of the fetched rows,
    or the message of an instance of [Exception] raised in the body.  The
    framework sends both with status 200: no failure is given another
    status. *)
Theorem employees_returns_array_or_message :
  forall (api : DbApi) (s s' : state api) (rv : view_rv),
    employees api s = (Ok rv, s') ->
    status (make_response rv) = 200%Z /\
    ((exists rows js,
         fetches api (store s) rows /\
         rv = RvResponse (json_response (JArr js)) /\
         Forall2 object_of_row rows js) \/
     (exists e,
         raises_in_body api (store s) e /\
         isinstance e Exception = true /\
         rv = RvStr (str e))).
Proof.
  intros api s s' rv Hrun.
  assert (Hfst : fst (employees api s) = Ok rv) by (rewrite Hrun; reflexivity).
  destruct (fetches_or_fails api (store s)) as [(rows & Hf) | (e & Hf)].
  - rewrite (employees_fetches api s rows Hf) in Hfst; unfold caught in Hfst.
    destruct (finish rows) as [rv'|e] eqn:Hfin.
    + injection Hfst as ->.
      destruct (finish_returns rows rv Hfin) as (resp & ->).
      destruct (finish_ok rows resp Hfin) as (js & -> & Hall).
      split; [reflexivity|]; left; exists rows, js; auto.
    + rewrite (finish_raise rows e Hfin) in Hfst; injection Hfst as <-.
      split; [reflexivity|]; right; exists e; repeat split.
      * right; exists rows; auto.
      * exact (finish_raise rows e Hfin).
  - rewrite (employees_fails api s e Hf) in Hfst; unfold caught in Hfst.
    destruct (isinstance e Exception) eqn:He; [|discriminate].
    injection Hfst as <-.
    split; [reflexivity|]; right; exists e; repeat split; auto.
    left; exact Hf.
Qed.

Lemma employees_returns_array_or_message_witness :
  status (make_response (RvStr "tuple index out of range")) = 200%Z /\
  ((exists rows js,
       fetches MemStore.mem_api
         (store (fresh MemStore.mem_api (MemStore.serving [[PyInt 7]]))) rows /\
       RvStr "tuple index out of range" = RvResponse (json_response (JArr js)) /\
       Forall2 object_of_row rows js) \/
   (exists e,
       raises_in_body MemStore.mem_api
         (store (fresh MemStore.mem_api (MemStore.serving [[PyInt 7]]))) e /\
       isinstance e Exception = true /\
       RvStr "tuple index out of range" = RvStr (str e))).
Proof.
  apply (employees_returns_array_or_message MemStore.mem_api
           (fresh MemStore.mem_api (MemStore.serving [[PyInt 7]]))
           (@MkState MemStore.mem_api (MemStore.serving [[PyInt 7]]) three_calls)).
  reflexivity.
Defined.

(** X5. When the three store calls succeed, [employees] returns the JSON
    listing exactly when every fetched row has two leading values with a
    JSON encoding.  One row that is too short or holds a value without
    encoding turns the whole response into the message string: there is
    no partial listing. *)
Theorem employees_lists_iff_encodable :
  forall (api : DbApi) (s : state api) (rows : list row),
    fetches api (store s) rows ->
    ((exists resp s', employees api s = (Ok (RvResponse resp), s')) <->
     Forall encodable rows) /\
    (~ Forall encodable rows ->
     exists msg s', employees api s = (Ok (RvStr msg), s')).
Proof.
  intros api s rows Hf.
  destruct (body_fetches api s rows Hf) as (w & Hb).
  assert (Hiff : (exists resp s', employees api s = (Ok (RvResponse resp), s')) <->
                 Forall encodable rows).
  { split.
    - intros (resp & s' & Hrun).
      assert (Hfst : fst (employees api s) = Ok (RvResponse resp))
        by (rewrite Hrun; reflexivity).
      rewrite (employees_fetches api s rows Hf) in Hfst; unfold caught in Hfst.
      destruct (finish rows) as [rv|e] eqn:Hfin.
      + injection Hfst as ->.
        destruct (finish_ok rows resp Hfin) as (js & _ & Hall).
        exact (object_of_row_encodable rows js Hall).
      + destruct (isinstance e Exception); discriminate.
    - intros Henc.
      destruct (finish_total rows Henc) as (resp & Hfin).
      rewrite Hfin in Hb.
      exists resp; eexists; apply employees_returns; eassumption. }
  split; [exact Hiff|].
  intros Hnot.
  destruct (finish rows) as [rv|e] eqn:Hfin.
  - destruct (finish_returns rows rv Hfin) as (resp & ->).
    exfalso; apply Hnot, Hiff.
    exists resp; eexists; apply employees_returns; eassumption.
  - exists (str e); eexists.
    apply (employees_catches api s _ e Hb).
    exact (finish_raise rows e Hfin).
Qed.

Lemma employees_lists_iff_encodable_witness :
  exists msg s',
    employees MemStore.mem_api
      (fresh MemStore.mem_api
         (MemStore.serving [[PyInt 1; PyStr "Alice"]; [PyInt 2; PyBytes []]])) =
    (Ok (RvStr msg), s').
Proof.
  apply (proj2 (employees_lists_iff_encodable MemStore.mem_api
                  (fresh MemStore.mem_api
                     (MemStore.serving [[PyInt 1; PyStr "Alice"]; [PyInt 2; PyBytes []]]))
                  [[PyInt 1; PyStr "Alice"]; [PyInt 2; PyBytes []]]
                  (ex_intro _ None (ex_intro _ _ (ex_intro _ _ (ex_intro _ _ (ex_intro _ _
                     (conj eq_refl (conj eq_refl eq_refl))))))))).
  intros H.
  inversion H as [|r rows _ Hrest]; subst.
  inversion Hrest as [|r' rows' (v0 & v1 & j0 & j1 & _ & H1 & _ & E1) _]; subst.
  injection H1 as <-; discriminate E1.
Defined.

(** X6. The view fetches exactly when the statement was executed without
    error: after a failed acquisition of the cursor or a failed execution
    no fetch is attempted, and after a successful execution the fetch is
    always attempted. *)
Theorem employees_fetches_only_after_execute :
  forall (api : DbApi) (s : state api) (l : list call),
    calls (snd (employees api s)) = calls s ++ l ->
    (In CallFetchall l <->
     exists c w1 c' w2,
       api_cursor api (store s) = (Ok c, w1) /\
       api_execute api c select_stmt w1 = (Ok c', w2)).
Proof.
  intros api s l Hl.
  destruct (employees_trace api s) as
    [(e & w1 & Hc & Hs) |
     [(c & w1 & e & w2 & Hc & He & Hs) |
      (c & w1 & c' & w2 & r & w3 & Hc & He & Hf & Hs)]];
    rewrite Hs in Hl; cbn [calls] in Hl; apply app_inv_head in Hl; subst l.
  - split.
    + intros [H|[]]; discriminate.
    + intros (c & w & _ & _ & H & _); rewrite Hc in H; discriminate.
  - split.
    + intros [H|[H|[]]]; discriminate.
    + intros (c0 & w0 & c' & w' & H1 & H2).
      rewrite Hc in H1; injection H1 as <- <-.
      rewrite He in H2; discriminate.
  - split.
    + intros _; exists c, w1, c', w2; auto.
    + intros _; right; right; left; reflexivity.
Qed.

Lemma employees_fetches_only_after_execute_witness :
  In CallFetchall three_calls <->
  exists c w1 c' w2,
    api_cursor MemStore.mem_api
      (store (fresh MemStore.mem_api (MemStore.serving alice_bob))) = (Ok c, w1) /\
    api_execute MemStore.mem_api c select_stmt w1 = (Ok c', w2).
Proof.
  apply (employees_fetches_only_after_execute MemStore.mem_api
           (fresh MemStore.mem_api (MemStore.serving alice_bob)) three_calls).
  reflexivity.
Defined.

(** ** The top level of the module *)

(** The calls a load of the module makes: an initial part of the set-up
    calls, or all of them followed by the start of the server, the latter
    under the name [__main__] only. *)
Lemma toplevel_booted (fw : Framework) (name : string) (b : boot fw) :
  exists l,
    booted (snd (toplevel fw name b)) = booted b ++ l /\
    ((exists rest, setup_calls name = l ++ rest) \/
     (name = "__main__" /\ l = setup_calls name ++ [BootRun "0.0.0.0" 5000])).
Proof.
  unfold toplevel, bbind, booting, bret, setup_calls.
  destruct (new_flask fw name (process b)) as [[app|e] w1]; cbn [process booted snd].
  2:{ exists [BootFlask name]; split; [reflexivity|]; left; eexists; reflexivity. }
  destruct (enable_cors fw app w1) as [[u|e] w2]; cbn [process booted snd].
  2:{ exists [BootFlask name; BootCORS]; rewrite <- !app_assoc.
      split; [reflexivity|]; left; eexists; reflexivity. }
  destruct (connect fw db_args w2) as [[db|e] w3]; cbn [process booted snd].
  2:{ exists [BootFlask name; BootCORS; BootConnect db_args]; rewrite <- !app_assoc.
      split; [reflexivity|]; left; eexists; reflexivity. }
  destruct (add_route fw app "/" ViewHome w3) as [[u1|e] w4]; cbn [process booted snd].
  2:{ exists [BootFlask name; BootCORS; BootConnect db_args; BootRoute "/" ViewHome].
      rewrite <- !app_assoc.
      split; [reflexivity|]; left; eexists; reflexivity. }
  destruct (add_route fw app "/employees" ViewEmployees w4) as [[u2|e] w5];
    cbn [process booted snd].
  2:{ exists [BootFlask name; BootCORS; BootConnect db_args; BootRoute "/" ViewHome;
              BootRoute "/employees" ViewEmployees].
      rewrite <- !app_assoc.
      split; [reflexivity|]; left; exists []; reflexivity. }
  destruct (String.eqb name "__main__") eqn:Hname.
  - apply String.eqb_eq in Hname.
    exists ([BootFlask name; BootCORS; BootConnect db_args; BootRoute "/" ViewHome;
             BootRoute "/employees" ViewEmployees] ++ [BootRun "0.0.0.0" 5000]).
    split; [|right; auto].
    cbn [process booted].
    destruct (run fw app "0.0.0.0" 5000 w5) as [[u3|e] w6]; cbn [process booted snd];
      rewrite <- !app_assoc; reflexivity.
  - exists [BootFlask name; BootCORS; BootConnect db_args; BootRoute "/" ViewHome;
            BootRoute "/employees" ViewEmployees].
    rewrite <- !app_assoc.
    split; [reflexivity|]; left; exists []; reflexivity.
Qed.

(** X7. A failure of [pymysql.connect] at the top level is not caught:
    whatever the class of the exception, the load of the module raises it,
    and the calls made are the creation of the application, the CORS
    set-up and the connection attempt; no route is registered and the
    server is not started. *)
Theorem connect_failure_aborts_startup :
  forall (fw : Framework) (name : string) (b : boot fw)
         (app : fw_app fw) (u : unit) (e : exc) (w1 w2 w3 : fw_world fw),
    new_flask fw name (process b) = (Ok app, w1) ->
    enable_cors fw app w1 = (Ok u, w2) ->
    connect fw db_args w2 = (Raise e, w3) ->
    toplevel fw name b =
    (Raise e, MkBoot w3 (booted b ++ [BootFlask name; BootCORS; BootConnect db_args])).
Proof.
  intros fw name b app u e w1 w2 w3 Hnew Hcors Hconn.
  unfold toplevel, bbind, booting, bret.
  rewrite Hnew; cbn [process booted].
  rewrite Hcors; cbn [process booted].
  rewrite Hconn; cbn [process booted].
  rewrite <- !app_assoc; reflexivity.
Qed.

Lemma connect_failure_aborts_startup_witness :
  toplevel MemBoot.mem_framework "__main__" (MemBoot.start (Some MemStore.connection_lost)) =
  (Raise MemStore.connection_lost,
   @MkBoot MemBoot.mem_framework (Some MemStore.connection_lost)
     ([] ++ [BootFlask "__main__"; BootCORS; BootConnect db_args])).
Proof.
  apply (connect_failure_aborts_startup MemBoot.mem_framework "__main__"
           (MemBoot.start (Some MemStore.connection_lost)) tt tt
           MemStore.connection_lost
           (Some MemStore.connection_lost) (Some MemStore.connection_lost)
           (Some MemStore.connection_lost));
    reflexivity.
Defined.

(** X8. The server is started only when the module runs under the name
    [__main__], on host 0.0.0.0 and port 5000, and only as the last call,
    after the application was created, CORS set up, the connection made
    and both routes registered; loaded under another name, the module
    never starts the server. *)
Theorem server_started_only_as_main :
  forall (fw : Framework) (name : string) (b : boot fw) (l : list boot_call)
         (h : string) (p : Z),
    booted (snd (toplevel fw name b)) = booted b ++ l ->
    In (BootRun h p) l ->
    name = "__main__" /\ h = "0.0.0.0" /\ p = 5000%Z /\
    l = setup_calls name ++ [BootRun "0.0.0.0" 5000].
Proof.
  intros fw name b l h p Hl Hin.
  destruct (toplevel_booted fw name b) as (l' & Hl' & Hcase).
  rewrite Hl' in Hl; apply app_inv_head in Hl; subst l'.
  destruct Hcase as [(rest & Hpre) | (Hname & ->)].
  - exfalso.
    assert (Hin' : In (BootRun h p) (setup_calls name))
      by (rewrite Hpre; apply in_or_app; left; exact Hin).
    unfold setup_calls in Hin'; simpl in Hin'.
    repeat (destruct Hin' as [Hin'|Hin']; [discriminate|]); exact Hin'.
  - apply in_app_or in Hin; destruct Hin as [Hin|[Hin|[]]].
    + exfalso; unfold setup_calls in Hin; simpl in Hin.
      repeat (destruct Hin as [Hin|Hin]; [discriminate|]); exact Hin.
    + injection Hin as <- <-; auto.
Qed.

Lemma server_started_only_as_main_witness :
  "__main__" = "__main__" /\ "0.0.0.0" = "0.0.0.0" /\ 5000%Z = 5000%Z /\
  setup_calls "__main__" ++ [BootRun "0.0.0.0" 5000] =
  setup_calls "__main__" ++ [BootRun "0.0.0.0" 5000].
Proof.
  apply (server_started_only_as_main MemBoot.mem_framework "__main__"
           (MemBoot.start None)
           (setup_calls "__main__" ++ [BootRun "0.0.0.0" 5000]) "0.0.0.0" 5000%Z).
  - reflexivity.
  - apply in_or_app; right; left; reflexivity.
Defined.
